(** * COMEM_InfraDon: the document-store service and the component that drives it

    A shallow embedding of
      - [src/services/database.service.ts] (class [DatabaseService]), and
      - the script part of [src/components/DatabaseManager.vue],
    followed by the properties of the two that the specification states.

    The store itself (PouchDB), the console and the clock are outside the
    repository.  Every call into them is a node of a program tree ([Prog]);
    what they answer is supplied by an environment ([Env]), so that a
    statement quantified over environments holds whatever the store does. *)

From Stdlib Require Import ZArith.
From stdpp Require Import gmap strings list fin_maps pretty.

(** ** JavaScript values *)

Module Js.

(** The values that flow through the two files.  Numbers are the integers
    (status codes, counters); objects are finite maps from property names
    to values, as the code only reads, spreads and sets properties. *)
#[warnings="-register-all"]
Inductive Value : Type :=
| VUndefined
| VNull
| VBool (b : bool)
| VNum (n : Z)
| VStr (s : string)
| VObj (o : gmap string Value).

(** ToBoolean: what [!v] and [v || w] look at. *)
Definition truthy (v : Value) : bool :=
  match v with
  | VUndefined | VNull => false
  | VBool b => b
  | VNum n => negb (Z.eqb n 0)
  | VStr s => negb (String.eqb s "")
  | VObj _ => true
  end.

(** [o.k] on an object: [undefined] when the property is absent. *)
Definition prop (o : gmap string Value) (k : string) : Value :=
  default VUndefined (o !! k).

(** [v?.k] for the own properties the code reads ([status]): a value
    that is not an object has none. *)
Definition member (v : Value) (k : string) : Value :=
  match v with
  | VObj o => prop o k
  | _ => VUndefined
  end.

(** A promise once settled; [E] is the type of what it rejects with. *)
Inductive Promise (E A : Type) : Type :=
| Resolved (a : A)
| Rejected (e : E).
Arguments Resolved {E A} a.
Arguments Rejected {E A} e.

End Js.
Import Js.

(** A document is a plain object. *)
Abbreviation Doc := (gmap string Value).

(** ** The outside world: PouchDB, console, clock *)

Module PouchDB.

(** The object [new PouchDB(url)] returns. *)
Definition Database := nat.

(** [PouchDB.Core.Response] *)
Record Response := { ok : bool; id : string; rev : string }.

Record AllDocsOptions :=
  { include_docs : bool; attachments : bool; descending : bool }.

(** A row of [allDocs]; only [doc] is read by the service. *)
Record Row := { doc : Doc }.
Record AllDocsResponse := { rows : list Row }.

Inductive Call : Type :=
| New (url : string)                          (* new PouchDB(url) *)
| Info (db : Database)                        (* db.info() *)
| Post (db : Database) (d : Doc)              (* db.post(d) *)
| AllDocs (db : Database) (o : AllDocsOptions) (* db.allDocs(o) *)
| Get (db : Database) (id : string)           (* db.get(id) *)
| Put (db : Database) (d : Doc)               (* db.put(d) *)
| Remove (db : Database) (d : Doc)            (* db.remove(d) *)
| Close (db : Database)                       (* db.close() *)
| ConsoleError (message : string) (error : Value)
| NowISOString.                               (* new Date().toISOString() *)

(** What each call answers.  A store call may throw or reject with any
    value. *)
Definition Resp (c : Call) : Type :=
  match c with
  | New _ => Promise Value Database
  | Info _ => Promise Value Value
  | Post _ _ => Promise Value Response
  | AllDocs _ _ => Promise Value AllDocsResponse
  | Get _ _ => Promise Value Doc
  | Put _ _ => Promise Value Response
  | Remove _ _ => Promise Value Response
  | Close _ => Promise Value unit
  | ConsoleError _ _ => unit
  | NowISOString => string
  end.

Definition is_store_call (c : Call) : bool :=
  match c with
  | ConsoleError _ _ | NowISOString => false
  | _ => true
  end.

(** Programs: a result, or a call and what to do with its answer. *)
Inductive Prog (A : Type) : Type :=
| Ret (a : A)
| Vis (c : Call) (k : Resp c -> Prog A).
Arguments Ret {A} a.
Arguments Vis {A} c k.

Fixpoint bind {A B : Type} (p : Prog A) (f : A -> Prog B) : Prog B :=
  match p with
  | Ret a => f a
  | Vis c k => Vis c (fun r => bind (k r) f)
  end.

Definition call (c : Call) : Prog (Resp c) := Vis c Ret.

(** An environment answers every call, from a state of its own. *)
Record Env := { World : Type; respond : forall c : Call, World -> Resp c * World }.

Record Run (E : Env) (A : Type) :=
  { result : A; trace : list Call; final : World E }.
Arguments result {E A} r.
Arguments trace {E A} r.
Arguments final {E A} r.

Fixpoint run {A : Type} (E : Env) (p : Prog A) (w : World E) : Run E A :=
  match p with
  | Ret a => {| result := a; trace := []; final := w |}
  | Vis c k =>
      let (r, w') := respond E c w in
      let rest := run E (k r) w' in
      {| result := result rest; trace := c :: trace rest; final := final rest |}
  end.

Definition store_calls {E : Env} {A : Type} (r : Run E A) : list Call :=
  filter (fun c => is_store_call c = true) (trace r).

End PouchDB.
Import PouchDB.

Notation "'let*' x ':=' p 'in' q" := (bind p (fun x => q))
  (at level 10, x pattern, p at level 100, q at level 200, only parsing).

(** ** [database.service.ts] *)

Module DatabaseService.

Record DatabaseResponse := { ok : bool; id : string; rev : string }.

(** The object [handleError] builds. *)
Record DatabaseError := { status : Value; message : string; error : Value }.

(** The class: its two fields. *)
Record Service := { db : option Database; dbUrl : string }.

Definition createDatabaseService (dbUrl : string) : Service :=
  {| db := None; dbUrl := dbUrl |}.

(** [handleError(message, error?)]: logs, then returns the error object
    (it does not throw). *)
Definition handleError (message : string) (error : Value) : Prog DatabaseError :=
  let* _ := call (ConsoleError message error) in
  Ret {| status := if truthy (member error "status")
                   then member error "status" else VNum 500;
         message := message;
         error := error |}.

(** [initialize()]: both failures end in the [catch], which calls
    [handleError] and drops what it returns. *)
Definition initialize (this : Service) : Prog (Service * Promise DatabaseError unit) :=
  let* r := call (New (dbUrl this)) in
  match r with
  | Rejected error =>
      let* _ := handleError "Failed to initialize database" error in
      Ret (this, Resolved tt)
  | Resolved h =>
      let this := {| db := Some h; dbUrl := dbUrl this |} in
      let* i := call (Info h) in
      match i with
      | Resolved _ => Ret (this, Resolved tt)
      | Rejected error =>
          let* _ := handleError "Failed to initialize database" error in
          Ret (this, Resolved tt)
      end
  end.

Definition createDocument (this : Service) (document : Doc)
  : Prog (Promise DatabaseError DatabaseResponse) :=
  match db this with
  | None =>
      let* e := handleError "Database not initialized" VUndefined in
      Ret (Rejected e)
  | Some db =>
      let* createdAt :=
        (if truthy (prop document "createdAt")
         then Ret (prop document "createdAt")
         else let* now := call NowISOString in Ret (VStr now)) in
      let* r := call (Post db (<["createdAt" := createdAt]> document)) in
      match r with
      | Resolved response =>
          Ret (Resolved {| ok := true;
                           id := PouchDB.id response;
                           rev := PouchDB.rev response |})
      | Rejected error =>
          let* e := handleError "Failed to create document" error in
          Ret (Rejected e)
      end
  end.

Definition getAllDocuments (this : Service) : Prog (Promise DatabaseError (list Doc)) :=
  match db this with
  | None =>
      let* e := handleError "Database not initialized" VUndefined in
      Ret (Rejected e)
  | Some db =>
      let* r := call (AllDocs db {| include_docs := true;
                                    attachments := true;
                                    descending := true |}) in
      match r with
      | Resolved result => Ret (Resolved (map doc (rows result)))
      | Rejected error =>
          let* e := handleError "Failed to fetch documents" error in
          Ret (Rejected e)
      end
  end.

Definition getDocumentById (this : Service) (id : string)
  : Prog (Promise DatabaseError Doc) :=
  match db this with
  | None =>
      let* e := handleError "Database not initialized" VUndefined in
      Ret (Rejected e)
  | Some db =>
      let* r := call (Get db id) in
      match r with
      | Resolved doc => Ret (Resolved doc)
      | Rejected error =>
          let* e := handleError ("Failed to fetch document with id " +:+ id) error in
          Ret (Rejected e)
      end
  end.

(** The object literal of [updateDocument]:
    [{...existingDoc, ...document, _id: id, _rev: existingDoc._rev}]. *)
Definition updatedDoc (existingDoc document : Doc) (id : string) : Doc :=
  <["_rev" := prop existingDoc "_rev"]>
    (<["_id" := VStr id]> (document ∪ existingDoc)).

Definition updateDocument (this : Service) (id : string) (document : Doc)
  : Prog (Promise DatabaseError DatabaseResponse) :=
  match db this with
  | None =>
      let* e := handleError "Database not initialized" VUndefined in
      Ret (Rejected e)
  | Some db =>
      let* g := call (Get db id) in
      match g with
      | Resolved existingDoc =>
          let* r := call (Put db (updatedDoc existingDoc document id)) in
          match r with
          | Resolved response =>
              Ret (Resolved {| ok := true;
                               id := PouchDB.id response;
                               rev := PouchDB.rev response |})
          | Rejected error =>
              let* e := handleError ("Failed to update document with id " +:+ id) error in
              Ret (Rejected e)
          end
      | Rejected error =>
          let* e := handleError ("Failed to update document with id " +:+ id) error in
          Ret (Rejected e)
      end
  end.

Definition deleteDocument (this : Service) (id : string)
  : Prog (Promise DatabaseError DatabaseResponse) :=
  match db this with
  | None =>
      let* e := handleError "Database not initialized" VUndefined in
      Ret (Rejected e)
  | Some db =>
      let* g := call (Get db id) in
      match g with
      | Resolved doc =>
          let* r := call (Remove db doc) in
          match r with
          | Resolved response =>
              Ret (Resolved {| ok := true;
                               id := PouchDB.id response;
                               rev := PouchDB.rev response |})
          | Rejected error =>
              let* e := handleError ("Failed to delete document with id " +:+ id) error in
              Ret (Rejected e)
          end
      | Rejected error =>
          let* e := handleError ("Failed to delete document with id " +:+ id) error in
          Ret (Rejected e)
      end
  end.

(** [close()] has no [try]: a rejection of [db.close()] leaves [this.db]
    set and comes out as it is. *)
Definition close (this : Service) : Prog (Service * Promise Value unit) :=
  match db this with
  | None => Ret (this, Resolved tt)
  | Some h =>
      let* r := call (Close h) in
      match r with
      | Resolved _ => Ret ({| db := None; dbUrl := dbUrl this |}, Resolved tt)
      | Rejected error => Ret (this, Rejected error)
      end
  end.

End DatabaseService.

(** ** [DatabaseManager.vue] *)

Module DatabaseManager.
Import DatabaseService.

Record NewDocument := { title : string; content : string }.

(** ['info' | 'success' | 'error'] *)
Module StatusType.
Inductive t := info | success | error.
End StatusType.

Record Status := { message : string; type : StatusType.t }.

(** The component instance: the [dbUrl] prop and the fields of [data()].
    The service object is owned by the component alone, so it is kept
    here by value and written back after the calls that mutate it. *)
Record Component :=
  { dbUrl : string;
    documents : list Doc;
    newDocument : NewDocument;
    status : Status;
    isLoading : bool;
    databaseService : option Service }.

(** [data()] *)
Definition data (dbUrl : string) : Component :=
  {| dbUrl := dbUrl;
     documents := [];
     newDocument := {| title := ""; content := "" |};
     status := {| message := ""; type := StatusType.info |};
     isLoading := false;
     databaseService := None |}.

(** Assignments to one field of [this]. *)
Definition set_documents (v : list Doc) (this : Component) : Component :=
  {| dbUrl := dbUrl this; documents := v; newDocument := newDocument this;
     status := status this; isLoading := isLoading this;
     databaseService := databaseService this |}.

Definition set_newDocument (v : NewDocument) (this : Component) : Component :=
  {| dbUrl := dbUrl this; documents := documents this; newDocument := v;
     status := status this; isLoading := isLoading this;
     databaseService := databaseService this |}.

Definition set_status (v : Status) (this : Component) : Component :=
  {| dbUrl := dbUrl this; documents := documents this;
     newDocument := newDocument this;
     status := v; isLoading := isLoading this;
     databaseService := databaseService this |}.

Definition set_isLoading (v : bool) (this : Component) : Component :=
  {| dbUrl := dbUrl this; documents := documents this;
     newDocument := newDocument this;
     status := status this; isLoading := v;
     databaseService := databaseService this |}.

Definition set_databaseService (v : option Service) (this : Component) : Component :=
  {| dbUrl := dbUrl this; documents := documents this;
     newDocument := newDocument this;
     status := status this; isLoading := isLoading this;
     databaseService := v |}.

Definition updateStatus (message : string) (type : StatusType.t) (this : Component)
  : Component :=
  set_status {| message := message; type := type |} this.

(** [fetchDocuments()]: [try]/[catch]/[finally] around one call. *)
Definition fetchDocuments (this : Component) : Prog Component :=
  match databaseService this with
  | None => Ret this
  | Some service =>
      let this := set_isLoading true this in
      let* r := getAllDocuments service in
      let this :=
        match r with
        | Resolved docs =>
            let this := set_documents docs this in
            updateStatus (pretty (length (documents this)) +:+ " documents loaded")
                         StatusType.success this
        | Rejected error =>
            updateStatus (DatabaseService.message error) StatusType.error this
        end in
      Ret (set_isLoading false this)
  end.

Definition initializeDatabase (this : Component) : Prog Component :=
  let this := set_databaseService (Some (createDatabaseService (dbUrl this))) this in
  let* (service, r) := initialize (createDatabaseService (dbUrl this)) in
  let this := set_databaseService (Some service) this in
  match r with
  | Resolved _ =>
      let this := updateStatus "Connected to database" StatusType.success this in
      fetchDocuments this
  | Rejected error =>
      Ret (updateStatus (DatabaseService.message error) StatusType.error this)
  end.

Definition addDocument (this : Component) : Prog Component :=
  if negb (truthy (VStr (title (newDocument this))))
     || negb (truthy (VStr (content (newDocument this))))
  then Ret (updateStatus "Title and content are required" StatusType.error this)
  else
    match databaseService this with
    | None => Ret this
    | Some service =>
        let this := set_isLoading true this in
        let* now := call NowISOString in
        let* r := createDocument service
                    (<["createdAt" := VStr now]>
                       (<["content" := VStr (content (newDocument this))]>
                          (<["title" := VStr (title (newDocument this))]> ∅))) in
        let* this :=
          match r with
          | Resolved _ =>
              let this := updateStatus "Document added successfully" StatusType.success this in
              let this := set_newDocument
                            {| title := ""; content := content (newDocument this) |} this in
              let this := set_newDocument
                            {| title := title (newDocument this); content := "" |} this in
              fetchDocuments this
          | Rejected error =>
              Ret (updateStatus (DatabaseService.message error)
                                StatusType.error this)
          end in
        Ret (set_isLoading false this)
    end.

Definition deleteDocument (this : Component) (id : string) : Prog Component :=
  match databaseService this with
  | None => Ret this
  | Some service =>
      let this := set_isLoading true this in
      let* r := DatabaseService.deleteDocument service id in
      let* this :=
        match r with
        | Resolved _ =>
            let this := updateStatus "Document deleted successfully" StatusType.success this in
            fetchDocuments this
        | Rejected error =>
            Ret (updateStatus (DatabaseService.message error)
                              StatusType.error this)
        end in
      Ret (set_isLoading false this)
  end.

Definition mounted (this : Component) : Prog Component :=
  initializeDatabase this.

(** [unmounted()]: a rejection of [close()] is not caught here. *)
Definition unmounted (this : Component) : Prog (Component * Promise Value unit) :=
  match databaseService this with
  | None => Ret (this, Resolved tt)
  | Some service =>
      let* (service, r) := close service in
      Ret (set_databaseService (Some service) this, r)
  end.

End DatabaseManager.

(** ** An in-memory store

    A small environment on which the definitions above can be evaluated:
    documents kept in a map under their id, a switch that makes every store
    call fail as an unreachable server does (an error with no [status]), a
    counter for the ids and revisions it hands out, and a fixed clock.
    A missing id answers with [status: 404], a stale revision with 409. *)

Module MemoryStore.

Record State :=
  { reachable : bool; docs : gmap string Doc; seq : nat; clock : string }.

Definition unreachable_error : Value :=
  VObj (<["message" := VStr "Failed to fetch"]> (<["name" := VStr "TypeError"]> ∅)).

Definition not_found : Value :=
  VObj (<["status" := VNum 404]> (<["name" := VStr "not_found"]>
       (<["message" := VStr "missing"]> ∅))).

Definition conflict : Value :=
  VObj (<["status" := VNum 409]> (<["name" := VStr "conflict"]>
       (<["message" := VStr "Document update conflict"]> ∅))).

Definition bump (w : State) (m : gmap string Doc) : State :=
  {| reachable := reachable w; docs := m; seq := S (seq w); clock := clock w |}.

(** Store [d] under [id] with a fresh revision. *)
Definition write (w : State) (id : string) (d : Doc) : Promise Value Response * State :=
  let rev := pretty (S (seq w)) +:+ "-r" in
  (Resolved {| PouchDB.ok := true; PouchDB.id := id; PouchDB.rev := rev |},
   bump w (<[id := <["_rev" := VStr rev]> (<["_id" := VStr id]> d)]> (docs w))).

(** A write to an existing document must name its current revision. *)
Definition guarded (w : State) (d : Doc)
    (k : string -> Promise Value Response * State) : Promise Value Response * State :=
  match prop d "_id" with
  | VStr id =>
      match docs w !! id with
      | Some cur =>
          match prop cur "_rev", prop d "_rev" with
          | VStr r, VStr r' => if String.eqb r r' then k id else (Rejected conflict, w)
          | _, _ => (Rejected conflict, w)
          end
      | None => (Rejected not_found, w)
      end
  | _ => (Rejected not_found, w)
  end.

Definition down {A : Type} (w : State) (x : Promise Value A * State)
  : Promise Value A * State :=
  if reachable w then x else (Rejected unreachable_error, w).

Definition respond (c : Call) : State -> Resp c * State :=
  match c as c0 return State -> Resp c0 * State with
  | New _ => fun w => (Resolved 0, w)
  | Info _ => fun w => down w (Resolved (VObj ∅), w)
  | Post _ d => fun w => down w (write w ("doc" +:+ pretty (seq w)) d)
  | AllDocs _ _ => fun w =>
      down w (Resolved {| rows := map (fun p => {| doc := snd p |})
                                      (map_to_list (docs w)) |}, w)
  | Get _ id => fun w =>
      down w (match docs w !! id with
              | Some d => (Resolved d, w)
              | None => (Rejected not_found, w)
              end)
  | Put _ d => fun w => down w (guarded w d (fun id => write w id d))
  | Remove _ d => fun w =>
      down w (guarded w d (fun id =>
        (Resolved {| PouchDB.ok := true; PouchDB.id := id;
                     PouchDB.rev := pretty (S (seq w)) +:+ "-r" |},
         bump w (delete id (docs w)))))
  | Close _ => fun w => (Resolved tt, w)
  | ConsoleError _ _ => fun w => (tt, w)
  | NowISOString => fun w => (clock w, w)
  end.

Definition env : Env := {| World := State; PouchDB.respond := respond |}.

Definition empty : State :=
  {| reachable := true; docs := ∅; seq := 0;
     clock := "2024-05-01T10:00:00.000Z" |}.

Definition unreachable : State :=
  {| reachable := false; docs := ∅; seq := 0;
     clock := "2024-05-01T10:00:00.000Z" |}.

(** One stored note, created in 2023. *)
Definition note : Doc :=
  <["_id" := VStr "n1"]> (<["_rev" := VStr "1-r"]>
  (<["title" := VStr "A"]> (<["content" := VStr "B"]>
  (<["createdAt" := VStr "2023-01-01T00:00:00.000Z"]> ∅)))).

Definition one_note : State :=
  {| reachable := true; docs := <["n1" := note]> ∅; seq := 1;
     clock := "2024-05-01T10:00:00.000Z" |}.

End MemoryStore.

Import DatabaseService.

(** * Statements

    The predicates the properties below are phrased with. *)

(** The error every operation raises on a service whose [db] is [null]. *)
Definition not_initialized : DatabaseError :=
  {| status := VNum 500; message := "Database not initialized"; error := VUndefined |}.

(** [p] rejects with [e] and reaches the store in no environment. *)
Definition rejects_without_store_call {A : Type}
    (p : Prog (Promise DatabaseError A)) (e : DatabaseError) : Prop :=
  forall (E : Env) (w : World E),
    result (run E p w) = Rejected e /\ store_calls (run E p w) = [].

(** A service is without a connection before [initialize] has been called
    on it, and after a [close] that went through. *)
Definition not_connected (this : Service) : Prop :=
  (exists url : string, this = createDatabaseService url)
  \/ (exists (E : Env) (w : World E) (before : Service),
        result (run E (close before) w) = (this, Resolved tt)).

(** The reading of C4 as it is written: whatever is supplied, the document
    an update writes has the [createdAt] of the document it read. *)
Definition createdAt_kept_by_update : Prop :=
  forall (E : Env) (w w1 : World E) (this : Service) (h : Database) (id : string)
         (document existingDoc written : Doc),
    db this = Some h ->
    PouchDB.respond E (Get h id) w = (Resolved existingDoc, w1) ->
    Put h written ∈ trace (run E (updateDocument this id document) w) ->
    written !! "createdAt" = existingDoc !! "createdAt".

(** The second half of C6 as it is written: a supplied [createdAt] is the
    one that is posted. *)
Definition supplied_createdAt_stored_as_given : Prop :=
  forall (E : Env) (w : World E) (this : Service) (h : Database)
         (document written : Doc) (v : Value),
    db this = Some h ->
    document !! "createdAt" = Some v ->
    Post h written ∈ trace (run E (createDocument this document) w) ->
    written !! "createdAt" = Some v.

(** The loading flag is raised only past the check that a service exists:
    true of [data()], and kept by every method. *)
Definition loading_needs_service (this : DatabaseManager.Component) : Prop :=
  DatabaseManager.databaseService this = None -> DatabaseManager.isLoading this = false.


(** [p] makes no call that [bad] marks, whatever it is answered. *)
Inductive Avoids (bad : Call -> bool) {A : Type} : Prog A -> Prop :=
| avoids_ret (a : A) : Avoids bad (Ret a)
| avoids_vis (c : Call) (k : Resp c -> Prog A) :
    bad c = false -> (forall r : Resp c, Avoids bad (k r)) -> Avoids bad (Vis c k).

Definition is_put (c : Call) : bool :=
  match c with
  | Put _ _ => true
  | _ => false
  end.

(** * Properties *)

(** ** Running programs *)

Lemma run_bind (E : Env) {A B : Type} (p : Prog A) (f : A -> Prog B) (w : World E) :
  run E (bind p f) w =
  {| result := result (run E (f (result (run E p w))) (final (run E p w)));
     trace := trace (run E p w)
              ++ trace (run E (f (result (run E p w))) (final (run E p w)));
     final := final (run E (f (result (run E p w))) (final (run E p w))) |}.
Proof.
  revert w; induction p as [a | c k IH]; intros w; simpl.
  - by destruct (run E (f a) w).
  - destruct (PouchDB.respond E c w) as [r w1]. rewrite IH. reflexivity.
Qed.

Lemma run_handleError (E : Env) (message : string) (error : Value) (w : World E) :
  result (run E (handleError message error) w)
    = {| status := if truthy (member error "status")
                   then member error "status" else VNum 500;
         message := message; error := error |}
  /\ trace (run E (handleError message error) w) = [ConsoleError message error].
Proof.
  unfold handleError, call; simpl.
  by destruct (PouchDB.respond E (ConsoleError message error) w).
Qed.

Lemma guard_rejects {A : Type} :
  rejects_without_store_call
    (A := A)
    (let* e := handleError "Database not initialized" VUndefined in Ret (Rejected e))
    not_initialized.
Proof.
  intros E w. unfold store_calls, handleError, call; simpl.
  by destruct (PouchDB.respond E (ConsoleError "Database not initialized" VUndefined) w).
Qed.

(** ** The service without a connection *)

(** Whatever the store answers, [initialize] resolves: its [catch] builds
    the error object and lets it go. *)
Lemma initialize_never_rejects (E : Env) (this : Service) (w : World E) :
  snd (result (run E (initialize this) w)) = Resolved tt.
Proof.
  unfold initialize, handleError, call; simpl.
  destruct (PouchDB.respond E (New (dbUrl this)) w) as [[h | error] w1]; simpl.
  - destruct (PouchDB.respond E (Info h) w1) as [[i | error] w2]; simpl; [done |].
    by destruct (PouchDB.respond E (ConsoleError _ error) w2).
  - by destruct (PouchDB.respond E (ConsoleError _ error) w1).
Qed.

(** C1 (the code departs from it).  Against a store whose liveness check
    fails, [initialize] makes the two store calls, logs the failure, and
    then resolves with the handle kept in [db]: the error object that
    [handleError] returns is never thrown. *)
Theorem initialize_unreachable_resolves :
  let r := run MemoryStore.env
               (initialize (createDatabaseService "http://down.example:5984/notes"))
               MemoryStore.unreachable in
  result r = ({| db := Some 0; dbUrl := "http://down.example:5984/notes" |}, Resolved tt)
  /\ trace r = [New "http://down.example:5984/notes"; Info 0;
                ConsoleError "Failed to initialize database"
                             MemoryStore.unreachable_error].
Proof. split; vm_compute; reflexivity. Qed.

Lemma not_connected_db (this : Service) : not_connected this -> db this = None.
Proof.
  intros [[url ->] | (E & w & before & H)]; [reflexivity |].
  revert H. unfold close. destruct (db before) as [h |] eqn:Hdb; simpl.
  - unfold call; simpl.
    destruct (PouchDB.respond E (Close h) w) as [[[] | error] w1]; simpl;
      intros [= <-]; reflexivity.
  - intros [= <-]. exact Hdb.
Qed.

(** C3.  On a service that is not connected (fresh from
    [createDatabaseService], or closed), each of the five operations
    rejects with [{status: 500, message: 'Database not initialized',
    error: undefined}] and makes no store call, in every environment. *)
Theorem operations_require_connection (this : Service) (document : Doc) (id : string) :
  not_connected this ->
  rejects_without_store_call (createDocument this document) not_initialized
  /\ rejects_without_store_call (getAllDocuments this) not_initialized
  /\ rejects_without_store_call (getDocumentById this id) not_initialized
  /\ rejects_without_store_call (updateDocument this id document) not_initialized
  /\ rejects_without_store_call (deleteDocument this id) not_initialized.
Proof.
  intros H%not_connected_db.
  unfold createDocument, getAllDocuments, getDocumentById, updateDocument,
    deleteDocument.
  rewrite H. repeat split; apply guard_rejects.
Qed.

Lemma operations_require_connection_witness :
  let this := createDatabaseService "http://localhost:5984/notes" in
  not_connected this
  /\ rejects_without_store_call (deleteDocument this "n1") not_initialized.
Proof.
  assert (H : not_connected (createDatabaseService "http://localhost:5984/notes"))
    by (left; eexists; reflexivity).
  split; [exact H |].
  exact (proj2 (proj2 (proj2 (proj2
    (operations_require_connection _ MemoryStore.note "n1" H))))).
Defined.

(** ** [updateDocument] *)

Lemma updatedDoc_lookup (existingDoc document : Doc) (id k : string) :
  updatedDoc existingDoc document id !! k =
    if decide (k = "_rev") then Some (prop existingDoc "_rev")
    else if decide (k = "_id") then Some (VStr id)
    else match document !! k with
         | Some v => Some v
         | None => existingDoc !! k
         end.
Proof.
  unfold updatedDoc.
  destruct (decide (k = "_rev")) as [-> | Hrev]; [by rewrite lookup_insert_eq |].
  rewrite lookup_insert_ne by done.
  destruct (decide (k = "_id")) as [-> | Hid]; [by rewrite lookup_insert_eq |].
  rewrite lookup_insert_ne by done.
  rewrite lookup_union.
  by destruct (document !! k), (existingDoc !! k).
Qed.

(** The calls of an update whose read went through. *)
Lemma updateDocument_trace (E : Env) (w w1 : World E) (this : Service)
    (h : Database) (id : string) (document existingDoc : Doc) :
  db this = Some h ->
  PouchDB.respond E (Get h id) w = (Resolved existingDoc, w1) ->
  trace (run E (updateDocument this id document) w) =
    Get h id :: Put h (updatedDoc existingDoc document id) ::
    match fst (PouchDB.respond E (Put h (updatedDoc existingDoc document id)) w1) with
    | Resolved _ => []
    | Rejected error =>
        [ConsoleError ("Failed to update document with id " +:+ id) error]
    end.
Proof.
  intros Hdb Hget. unfold updateDocument, handleError, call. rewrite Hdb; simpl.
  rewrite Hget; simpl.
  destruct (PouchDB.respond E (Put h _) w1) as [[response | error] w2]; simpl; [done |].
  by destruct (PouchDB.respond E (ConsoleError _ error) w2).
Qed.

(** C2.  When the read of [id] goes through with [existingDoc], the store
    calls of [updateDocument] are that read and then one write; the written
    document has [_id] equal to the given id and [_rev] equal to the one
    just read, whatever the supplied fields say, and every other property
    is the supplied one if there is one and the existing one otherwise. *)
Theorem updateDocument_writes_merge (E : Env) (w w1 : World E) (this : Service)
    (h : Database) (id : string) (document existingDoc : Doc) :
  db this = Some h ->
  PouchDB.respond E (Get h id) w = (Resolved existingDoc, w1) ->
  exists written : Doc,
    store_calls (run E (updateDocument this id document) w)
      = [Get h id; Put h written]
    /\ written !! "_id" = Some (VStr id)
    /\ written !! "_rev" = Some (prop existingDoc "_rev")
    /\ forall k : string, k <> "_id" -> k <> "_rev" ->
         written !! k = match document !! k with
                        | Some v => Some v
                        | None => existingDoc !! k
                        end.
Proof.
  intros Hdb Hget. exists (updatedDoc existingDoc document id).
  split; [| split; [| split]].
  - unfold store_calls.
    rewrite (updateDocument_trace E w w1 this h id document existingDoc) by done.
    by destruct (fst (PouchDB.respond E (Put h _) w1)).
  - by rewrite updatedDoc_lookup.
  - by rewrite updatedDoc_lookup.
  - intros k Hid Hrev. rewrite updatedDoc_lookup.
    by rewrite !decide_False.
Qed.

Lemma updateDocument_writes_merge_witness :
  exists written : Doc,
    store_calls (run MemoryStore.env
                   (updateDocument {| db := Some 0; dbUrl := "http://localhost:5984/notes" |}
                      "n1" (<["_rev" := VStr "9-zz"]> (<["title" := VStr "C"]> ∅)))
                   MemoryStore.one_note)
      = [Get 0 "n1"; Put 0 written]
    /\ written !! "_id" = Some (VStr "n1")
    /\ written !! "_rev" = Some (prop MemoryStore.note "_rev")
    /\ forall k : string, k <> "_id" -> k <> "_rev" ->
         written !! k =
           match (<["_rev" := VStr "9-zz"]> (<["title" := VStr "C"]> ∅) : Doc) !! k with
           | Some v => Some v
           | None => MemoryStore.note !! k
           end.
Proof.
  apply (updateDocument_writes_merge MemoryStore.env MemoryStore.one_note
           MemoryStore.one_note).
  - reflexivity.
  - vm_compute. reflexivity.
Defined.

Lemma updateDocument_written (E : Env) (w w1 : World E) (this : Service)
    (h : Database) (id : string) (document existingDoc written : Doc) :
  db this = Some h ->
  PouchDB.respond E (Get h id) w = (Resolved existingDoc, w1) ->
  Put h written ∈ trace (run E (updateDocument this id document) w) ->
  written = updatedDoc existingDoc document id.
Proof.
  intros Hdb Hget.
  rewrite (updateDocument_trace E w w1 this h id document existingDoc) by done.
  rewrite !elem_of_cons. intros [Hin | [Hin | Hin]].
  - discriminate Hin.
  - by injection Hin.
  - destruct (fst (PouchDB.respond E (Put h _) w1)).
    + by apply elem_of_nil in Hin.
    + apply list_elem_of_singleton in Hin. discriminate Hin.
Qed.

(** C4, as written, fails: an update that supplies [createdAt] replaces the
    stored one (the note of 2023 is written back dated 2030). *)
Lemma update_overwrites_createdAt : ~ createdAt_kept_by_update.
Proof.
  intros H.
  specialize (H MemoryStore.env MemoryStore.one_note MemoryStore.one_note
                {| db := Some 0; dbUrl := "http://localhost:5984/notes" |} 0 "n1"
                (<["createdAt" := VStr "2030-01-01T00:00:00.000Z"]> ∅)
                MemoryStore.note
                (updatedDoc MemoryStore.note
                   (<["createdAt" := VStr "2030-01-01T00:00:00.000Z"]> ∅) "n1")).
  assert (Hne : updatedDoc MemoryStore.note
                  (<["createdAt" := VStr "2030-01-01T00:00:00.000Z"]> ∅) "n1"
                  !! "createdAt" <> MemoryStore.note !! "createdAt")
    by (vm_compute; discriminate).
  apply Hne, H.
  - reflexivity.
  - vm_compute. reflexivity.
  - rewrite (updateDocument_trace MemoryStore.env MemoryStore.one_note
               MemoryStore.one_note _ 0 "n1" _ MemoryStore.note) by (vm_compute; reflexivity).
    apply list_elem_of_further, list_elem_of_here.
Qed.

(** C4, amended.  An update that supplies no [createdAt] writes the
    document back with the [createdAt] it read. *)
Theorem update_keeps_createdAt_unless_supplied (E : Env) (w w1 : World E)
    (this : Service) (h : Database) (id : string)
    (document existingDoc written : Doc) :
  document !! "createdAt" = None ->
  db this = Some h ->
  PouchDB.respond E (Get h id) w = (Resolved existingDoc, w1) ->
  Put h written ∈ trace (run E (updateDocument this id document) w) ->
  written !! "createdAt" = existingDoc !! "createdAt".
Proof.
  intros Hnone Hdb Hget Hin.
  rewrite (updateDocument_written E w w1 this h id document existingDoc written)
    by done.
  rewrite updatedDoc_lookup, Hnone. reflexivity.
Qed.

Lemma update_keeps_createdAt_unless_supplied_witness :
  updatedDoc MemoryStore.note (<["title" := VStr "C"]> ∅) "n1" !! "createdAt"
    = MemoryStore.note !! "createdAt".
Proof.
  apply (update_keeps_createdAt_unless_supplied MemoryStore.env MemoryStore.one_note
           MemoryStore.one_note
           {| db := Some 0; dbUrl := "http://localhost:5984/notes" |} 0 "n1"
           (<["title" := VStr "C"]> ∅) MemoryStore.note).
  - vm_compute. reflexivity.
  - reflexivity.
  - vm_compute. reflexivity.
  - rewrite (updateDocument_trace MemoryStore.env MemoryStore.one_note
               MemoryStore.one_note _ 0 "n1" _ MemoryStore.note) by (vm_compute; reflexivity).
    apply list_elem_of_further, list_elem_of_here.
Defined.

(** ** [deleteDocument] *)

(** C5.  [deleteDocument] reads the document and hands what it read (its
    [_id] and [_rev] included) to [remove].  When the read is rejected, no
    [remove] is made and the operation rejects with the message of a failed
    delete and the status of the read's error (500 if it has none): a
    not-found read, which carries 404, gives 404. *)
Theorem deleteDocument_reads_then_removes (E : Env) (w : World E) (this : Service)
    (h : Database) (id : string) :
  db this = Some h ->
  (forall (doc : Doc) (w1 : World E),
      PouchDB.respond E (Get h id) w = (Resolved doc, w1) ->
      store_calls (run E (deleteDocument this id) w) = [Get h id; Remove h doc])
  /\ (forall (error : Value) (w1 : World E),
      PouchDB.respond E (Get h id) w = (Rejected error, w1) ->
      store_calls (run E (deleteDocument this id) w) = [Get h id]
      /\ result (run E (deleteDocument this id) w)
         = Rejected {| status := if truthy (member error "status")
                                 then member error "status" else VNum 500;
                       message := "Failed to delete document with id " +:+ id;
                       error := error |}
      /\ (member error "status" = VNum 404 ->
          exists e : DatabaseError,
            result (run E (deleteDocument this id) w) = Rejected e
            /\ status e = VNum 404)).
Proof.
  intros Hdb. unfold deleteDocument, store_calls, handleError, call.
  rewrite Hdb; simpl. split.
  - intros doc w1 ->; simpl.
    destruct (PouchDB.respond E (Remove h doc) w1) as [[response | error] w2]; simpl;
      [done |].
    by destruct (PouchDB.respond E (ConsoleError _ error) w2).
  - intros error w1 ->; simpl.
    destruct (PouchDB.respond E (ConsoleError _ error) w1) as [[] w2]; simpl.
    split; [done |]. split; [done |].
    intros ->. eexists. split; reflexivity.
Qed.

Lemma deleteDocument_reads_then_removes_witness :
  store_calls (run MemoryStore.env
                 (deleteDocument {| db := Some 0; dbUrl := "http://localhost:5984/notes" |}
                    "gone")
                 MemoryStore.one_note) = [Get 0 "gone"]
  /\ exists e : DatabaseError,
       result (run MemoryStore.env
                 (deleteDocument {| db := Some 0; dbUrl := "http://localhost:5984/notes" |}
                    "gone")
                 MemoryStore.one_note) = Rejected e
       /\ status e = VNum 404.
Proof.
  destruct (deleteDocument_reads_then_removes MemoryStore.env MemoryStore.one_note
              {| db := Some 0; dbUrl := "http://localhost:5984/notes" |} 0 "gone"
              eq_refl) as [_ H].
  destruct (H MemoryStore.not_found MemoryStore.one_note eq_refl) as (Hcalls & _ & H404).
  split; [exact Hcalls | exact (H404 eq_refl)].
Defined.

(** ** [createDocument] *)

Lemma insert_truthy_prop (document : Doc) (k : string) :
  truthy (prop document k) = true -> <[k := prop document k]> document = document.
Proof.
  unfold prop. destruct (document !! k) as [v |] eqn:Hk; simpl; [| done].
  intros _. by apply insert_id.
Qed.

(** C6, as written, fails: a supplied [createdAt] that is the empty string
    is posted as the time of the clock. *)
Lemma empty_createdAt_is_replaced : ~ supplied_createdAt_stored_as_given.
Proof.
  intros H.
  specialize (H MemoryStore.env MemoryStore.empty
                {| db := Some 0; dbUrl := "http://localhost:5984/notes" |} 0
                (<["createdAt" := VStr ""]>
                   (<["content" := VStr "B"]> (<["title" := VStr "A"]> ∅)))
                (<["createdAt" := VStr "2024-05-01T10:00:00.000Z"]>
                   (<["content" := VStr "B"]> (<["title" := VStr "A"]> ∅)))
                (VStr "") eq_refl).
  assert (Hne : (<["createdAt" := VStr "2024-05-01T10:00:00.000Z"]>
                   (<["content" := VStr "B"]> (<["title" := VStr "A"]> ∅)) : Doc)
                  !! "createdAt" <> Some (VStr ""))
    by (vm_compute; discriminate).
  apply Hne, H.
  - vm_compute. reflexivity.
  - assert (Ht : trace (run MemoryStore.env
                   (createDocument {| db := Some 0; dbUrl := "http://localhost:5984/notes" |}
                      (<["createdAt" := VStr ""]>
                         (<["content" := VStr "B"]> (<["title" := VStr "A"]> ∅))))
                   MemoryStore.empty)
                 = [NowISOString;
                    Post 0 (<["createdAt" := VStr "2024-05-01T10:00:00.000Z"]>
                              (<["content" := VStr "B"]> (<["title" := VStr "A"]> ∅)))])
      by (vm_compute; reflexivity).
    rewrite Ht. apply list_elem_of_further, list_elem_of_here.
Qed.

(** C6, amended.  On a connected service [createDocument] makes one store
    call, a [post].  A [createdAt] that is truthy (a non-empty string) is
    posted as given, the document unchanged; otherwise (absent, or empty)
    the posted document has [createdAt] set to the clock's ISO string.  When
    the [post] goes through, the result is [{ok: true, id, rev}] with the
    store's id and revision. *)
Theorem createDocument_defaults_createdAt (E : Env) (w : World E) (this : Service)
    (h : Database) (document : Doc) :
  db this = Some h ->
  let now := fst (PouchDB.respond E NowISOString w) in
  let supplied := truthy (prop document "createdAt") in
  let w0 := if supplied then w else snd (PouchDB.respond E NowISOString w) in
  let written := if supplied then document
                 else <["createdAt" := VStr now]> document in
  let r := run E (createDocument this document) w in
  store_calls r = [Post h written]
  /\ (supplied = false -> written !! "createdAt" = Some (VStr now))
  /\ (forall (response : Response) (w1 : World E),
        PouchDB.respond E (Post h written) w0 = (Resolved response, w1) ->
        result r = Resolved {| ok := true;
                               id := PouchDB.id response;
                               rev := PouchDB.rev response |}).
Proof.
  intros Hdb. unfold createDocument, store_calls, handleError, call.
  rewrite Hdb; simpl.
  destruct (truthy (prop document "createdAt")) eqn:Ht; simpl.
  - rewrite (insert_truthy_prop document "createdAt" Ht).
    destruct (PouchDB.respond E (Post h document) w) as [[response | error] w1] eqn:Hp;
      simpl.
    + split; [done |]. split; [done |]. by intros ? ? [= <- <-].
    + destruct (PouchDB.respond E (ConsoleError _ error) w1); simpl.
      split; [done |]. split; done.
  - destruct (PouchDB.respond E NowISOString w) as [now w0]; simpl.
    destruct (PouchDB.respond E (Post h _) w0) as [[response | error] w1] eqn:Hp; simpl.
    + split; [done |]. split; [by rewrite lookup_insert_eq |]. by intros ? ? [= <- <-].
    + destruct (PouchDB.respond E (ConsoleError _ error) w1); simpl.
      split; [done |]. split; [by rewrite lookup_insert_eq | done].
Qed.

Lemma createDocument_defaults_createdAt_witness :
  store_calls (run MemoryStore.env
                 (createDocument {| db := Some 0; dbUrl := "http://localhost:5984/notes" |}
                    (<["content" := VStr "B"]> (<["title" := VStr "A"]> ∅)))
                 MemoryStore.empty)
    = [Post 0 (<["createdAt" := VStr "2024-05-01T10:00:00.000Z"]>
                 (<["content" := VStr "B"]> (<["title" := VStr "A"]> ∅)))].
Proof.
  exact (proj1 (createDocument_defaults_createdAt MemoryStore.env MemoryStore.empty
                  {| db := Some 0; dbUrl := "http://localhost:5984/notes" |} 0
                  (<["content" := VStr "B"]> (<["title" := VStr "A"]> ∅)) eq_refl)).
Defined.

(** ** Further properties of the service *)

(** Destruct the answer to the next call of the program being run. *)
Ltac answer :=
  match goal with
  | |- context [PouchDB.respond ?E ?c ?w] =>
      let r := fresh "r" in
      let w' := fresh "w" in
      destruct (PouchDB.respond E c w) as [r w'] eqn:?; simpl in *
  end.




Lemma initialize_keeps_dbUrl (E : Env) (w : World E) (this : Service) :
  dbUrl (fst (result (run E (initialize this) w))) = dbUrl this.
Proof.
  unfold initialize, handleError, call; simpl.
  answer. destruct r as [h | error]; simpl.
  - answer. destruct r as [i | error]; simpl; [done |]. answer. done.
  - answer. done.
Qed.

(** X2.  [initialize] keeps [dbUrl] and asks for a database at that
    address.  When the constructor returns a handle, the handle is stored in
    [db] and the liveness check is made on it; the handle stays in [db]
    whether the check passes or not.  When the constructor throws, [db] is
    what it was and no further store call is made. *)
Theorem initialize_sets_handle (E : Env) (w : World E) (this : Service) :
  let r := run E (initialize this) w in
  dbUrl (fst (result r)) = dbUrl this
  /\ match fst (PouchDB.respond E (New (dbUrl this)) w) with
     | Resolved h =>
         db (fst (result r)) = Some h
         /\ store_calls r = [New (dbUrl this); Info h]
     | Rejected _ =>
         db (fst (result r)) = db this
         /\ store_calls r = [New (dbUrl this)]
     end.
Proof.
  unfold initialize, store_calls, handleError, call; simpl.
  answer. destruct r as [h | error]; simpl.
  - answer. destruct r as [i | error]; simpl; [done |]. answer. done.
  - answer. done.
Qed.

(** X3.  A service left by [initialize] with a handle whose liveness check
    failed is not treated as uninitialized: [getAllDocuments] on it reaches
    the store with [allDocs] on that handle. *)
Theorem failed_check_still_connected (E : Env) (w w1 w2 w' : World E)
    (this : Service) (h : Database) (error : Value) :
  PouchDB.respond E (New (dbUrl this)) w = (Resolved h, w1) ->
  PouchDB.respond E (Info h) w1 = (Rejected error, w2) ->
  store_calls (run E (getAllDocuments (fst (result (run E (initialize this) w)))) w')
    = [AllDocs h {| include_docs := true; attachments := true; descending := true |}].
Proof.
  intros Hnew Hinfo.
  unfold initialize, handleError, call; simpl. rewrite Hnew; simpl.
  rewrite Hinfo; simpl. answer.
  unfold getAllDocuments, store_calls, handleError, call; simpl.
  answer. destruct r0; simpl; [done |]. answer. done.
Qed.

Lemma failed_check_still_connected_witness :
  store_calls (run MemoryStore.env
                 (getAllDocuments
                    (fst (result (run MemoryStore.env
                                    (initialize (createDatabaseService "http://down.example:5984/notes"))
                                    MemoryStore.unreachable))))
                 MemoryStore.unreachable)
    = [AllDocs 0 {| include_docs := true; attachments := true; descending := true |}].
Proof.
  exact (failed_check_still_connected MemoryStore.env MemoryStore.unreachable
           MemoryStore.unreachable MemoryStore.unreachable MemoryStore.unreachable
           (createDatabaseService "http://down.example:5984/notes") 0
           MemoryStore.unreachable_error eq_refl eq_refl).
Defined.

(** X4.  On a connected service [getAllDocuments] makes one store call,
    [allDocs] with [include_docs], [attachments] and [descending] all set.
    When it resolves, the result has one document per row, in the order of
    the rows (none for an empty store: an empty list, not an error); when
    it rejects, the operation rejects with ['Failed to fetch documents'],
    the store's error as cause and its status, or 500. *)
Theorem getAllDocuments_connected (E : Env) (w : World E) (this : Service)
    (h : Database) :
  db this = Some h ->
  let opts := {| include_docs := true; attachments := true; descending := true |} in
  let r := run E (getAllDocuments this) w in
  store_calls r = [AllDocs h opts]
  /\ match fst (PouchDB.respond E (AllDocs h opts) w) with
     | Resolved response =>
         exists docs : list Doc,
           result r = Resolved docs
           /\ length docs = length (rows response)
           /\ (forall i : nat, docs !! i = doc <$> rows response !! i)
           /\ (rows response = [] -> docs = [])
     | Rejected error =>
         result r = Rejected {| status := if truthy (member error "status")
                                          then member error "status" else VNum 500;
                                message := "Failed to fetch documents";
                                error := error |}
     end.
Proof.
  intros Hdb. unfold getAllDocuments, store_calls, handleError, call.
  rewrite Hdb; simpl. answer. destruct r as [response | error]; simpl.
  - split; [done |]. exists (map doc (rows response)).
    split; [done |]. split; [apply length_map |]. split.
    + intros i. apply list_lookup_fmap.
    + by intros ->.
  - answer. done.
Qed.

Lemma getAllDocuments_connected_witness :
  store_calls (run MemoryStore.env
                 (getAllDocuments {| db := Some 0; dbUrl := "http://localhost:5984/notes" |})
                 MemoryStore.empty)
    = [AllDocs 0 {| include_docs := true; attachments := true; descending := true |}].
Proof.
  exact (proj1 (getAllDocuments_connected MemoryStore.env MemoryStore.empty
                  {| db := Some 0; dbUrl := "http://localhost:5984/notes" |} 0 eq_refl)).
Defined.

(** X5.  On a connected service [getDocumentById] makes one store call,
    [get] of the id.  The document the store answers is returned as it is;
    a rejected read rejects with ['Failed to fetch document with id <id>']
    and the store's status, so a missing document gives 404. *)
Theorem getDocumentById_connected (E : Env) (w : World E) (this : Service)
    (h : Database) (id : string) :
  db this = Some h ->
  let r := run E (getDocumentById this id) w in
  store_calls r = [Get h id]
  /\ match fst (PouchDB.respond E (Get h id) w) with
     | Resolved d => result r = Resolved d
     | Rejected error =>
         result r = Rejected {| status := if truthy (member error "status")
                                          then member error "status" else VNum 500;
                                message := "Failed to fetch document with id " +:+ id;
                                error := error |}
         /\ (member error "status" = VNum 404 ->
             exists e : DatabaseError, result r = Rejected e /\ status e = VNum 404)
     end.
Proof.
  intros Hdb. unfold getDocumentById, store_calls, handleError, call.
  rewrite Hdb; simpl. answer. destruct r as [d | error]; simpl; [done |].
  answer. split; [done |]. split; [done |].
  intros ->. eexists. split; reflexivity.
Qed.

Lemma getDocumentById_connected_witness :
  result (run MemoryStore.env
            (getDocumentById {| db := Some 0; dbUrl := "http://localhost:5984/notes" |} "n1")
            MemoryStore.one_note) = Resolved MemoryStore.note.
Proof.
  exact (proj2 (getDocumentById_connected MemoryStore.env MemoryStore.one_note
                  {| db := Some 0; dbUrl := "http://localhost:5984/notes" |} 0 "n1"
                  eq_refl)).
Defined.

(** X6.  [close] on a service with no handle makes no call and resolves.
    With a handle it makes one call, [db.close()]: if that resolves, [db]
    is cleared, so that closing again makes no call; if it rejects, the
    service is left as it was, handle included, and [close] rejects with
    the store's own error, not wrapped by [handleError] and not logged. *)
Theorem close_behaviour (E : Env) (w : World E) (this : Service) :
  let r := run E (close this) w in
  match db this with
  | None => r = {| result := (this, Resolved tt); trace := []; final := w |}
  | Some h =>
      trace r = [Close h]
      /\ match fst (PouchDB.respond E (Close h) w) with
         | Resolved _ =>
             result r = ({| db := None; dbUrl := dbUrl this |}, Resolved tt)
             /\ forall w' : World E,
                  run E (close (fst (result r))) w'
                  = {| result := (fst (result r), Resolved tt);
                       trace := []; final := w' |}
         | Rejected error => result r = (this, Rejected error)
         end
  end.
Proof.
  unfold close. destruct (db this) as [h |] eqn:Hdb; simpl; [| done].
  unfold call; simpl. answer. destruct r as [[] | error]; simpl; done.
Qed.
(** X7.  What [updateDocument] returns on a connected service.  A rejected
    read ends the operation: nothing is written, and it rejects with
    ['Failed to update document with id <id>'] and the read's status.  After
    a read that went through, a write the store accepts gives
    [{ok: true, id, rev}] with the id and the new revision from the store's
    answer; a write it refuses (a conflict, say) rejects with the same
    message and the write's status.  No second attempt is made. *)
Theorem updateDocument_outcome (E : Env) (w : World E) (this : Service)
    (h : Database) (id : string) (document : Doc) :
  db this = Some h ->
  let r := run E (updateDocument this id document) w in
  let failed error :=
    Rejected {| status := if truthy (member error "status")
                          then member error "status" else VNum 500;
                message := "Failed to update document with id " +:+ id;
                error := error |} in
  match PouchDB.respond E (Get h id) w with
  | (Rejected error, _) => store_calls r = [Get h id] /\ result r = failed error
  | (Resolved existingDoc, w1) =>
      length (store_calls r) = 2
      /\ match fst (PouchDB.respond E (Put h (updatedDoc existingDoc document id)) w1) with
         | Resolved response =>
             result r = Resolved {| ok := true;
                                    id := PouchDB.id response;
                                    rev := PouchDB.rev response |}
         | Rejected error => result r = failed error
         end
  end.
Proof.
  intros Hdb. unfold updateDocument, store_calls, handleError, call.
  rewrite Hdb; simpl. answer. destruct r as [existingDoc | error]; simpl.
  - answer. destruct r as [response | error]; simpl; [done |]. answer. done.
  - answer. done.
Qed.

Lemma updateDocument_outcome_witness :
  exists e : DatabaseError,
    result (run MemoryStore.env
              (updateDocument {| db := Some 0; dbUrl := "http://localhost:5984/notes" |}
                 "gone" (<["title" := VStr "C"]> ∅))
              MemoryStore.one_note) = Rejected e
    /\ status e = VNum 404
    /\ message e = "Failed to update document with id gone".
Proof.
  eexists. split.
  - exact (proj2 (updateDocument_outcome MemoryStore.env MemoryStore.one_note
                    {| db := Some 0; dbUrl := "http://localhost:5984/notes" |} 0 "gone"
                    (<["title" := VStr "C"]> ∅) eq_refl)).
  - split; reflexivity.
Defined.

(** X8.  What [deleteDocument] returns once its read went through: when
    the store accepts the removal, [{ok: true, id, rev}] from the store's
    answer; when it refuses, a rejection with ['Failed to delete document
    with id <id>'] and the removal's status.  Either way two store calls
    were made. *)
Theorem deleteDocument_outcome (E : Env) (w w1 : World E) (this : Service)
    (h : Database) (id : string) (d : Doc) :
  db this = Some h ->
  PouchDB.respond E (Get h id) w = (Resolved d, w1) ->
  let r := run E (deleteDocument this id) w in
  match fst (PouchDB.respond E (Remove h d) w1) with
  | Resolved response =>
      result r = Resolved {| ok := true;
                             id := PouchDB.id response;
                             rev := PouchDB.rev response |}
  | Rejected error =>
      result r = Rejected {| status := if truthy (member error "status")
                                       then member error "status" else VNum 500;
                             message := "Failed to delete document with id " +:+ id;
                             error := error |}
  end.
Proof.
  intros Hdb Hget. unfold deleteDocument, handleError, call.
  rewrite Hdb; simpl. rewrite Hget; simpl.
  answer. destruct r as [response | error]; simpl; [done |]. answer. done.
Qed.

Lemma deleteDocument_outcome_witness :
  result (run MemoryStore.env
            (deleteDocument {| db := Some 0; dbUrl := "http://localhost:5984/notes" |} "n1")
            MemoryStore.one_note)
    = Resolved {| ok := true; id := "n1"; rev := "2-r" |}.
Proof.
  exact (deleteDocument_outcome MemoryStore.env MemoryStore.one_note
           MemoryStore.one_note
           {| db := Some 0; dbUrl := "http://localhost:5984/notes" |} 0 "n1"
           MemoryStore.note eq_refl eq_refl).
Defined.

(** X9.  [createDocument] on a connected service reads the clock exactly
    when the supplied [createdAt] is falsy, and then once, before the
    [post]; with a truthy [createdAt] the [post] is its first call. *)
Theorem createDocument_clock (E : Env) (w : World E) (this : Service)
    (h : Database) (document : Doc) :
  db this = Some h ->
  let r := run E (createDocument this document) w in
  if truthy (prop document "createdAt")
  then (NowISOString ∉ trace r) /\ head (trace r) = Some (Post h document)
  else head (trace r) = Some NowISOString /\ (NowISOString ∉ tail (trace r)).
Proof.
  intros Hdb. unfold createDocument, handleError, call. rewrite Hdb; simpl.
  destruct (truthy (prop document "createdAt")) eqn:Ht; simpl.
  - rewrite (insert_truthy_prop document "createdAt" Ht).
    answer. destruct r as [response | error]; simpl.
    + split; [| done]. rewrite list_elem_of_singleton. discriminate.
    + answer. split; [| done].
      rewrite !elem_of_cons, elem_of_nil. intros [? | [? | []]]; discriminate.
  - answer. answer. split; [done |]. destruct r0 as [response | error]; simpl.
    + rewrite list_elem_of_singleton. discriminate.
    + answer. rewrite !elem_of_cons, elem_of_nil. intros [? | [? | []]]; discriminate.
Qed.

Lemma createDocument_clock_witness :
  head (trace (run MemoryStore.env
                 (createDocument {| db := Some 0; dbUrl := "http://localhost:5984/notes" |}
                    (<["title" := VStr "A"]> ∅))
                 MemoryStore.empty)) = Some NowISOString.
Proof.
  exact (proj1 (createDocument_clock MemoryStore.env MemoryStore.empty
                  {| db := Some 0; dbUrl := "http://localhost:5984/notes" |} 0
                  (<["title" := VStr "A"]> ∅) eq_refl)).
Defined.






(** ** The component *)

Import DatabaseManager.

Lemma result_bind (E : Env) {A B : Type} (p : Prog A) (f : A -> Prog B) (w : World E) :
  result (run E (bind p f) w)
    = result (run E (f (result (run E p w))) (final (run E p w))).
Proof. by rewrite run_bind. Qed.

Lemma falsy_string (s : string) : negb (truthy (VStr s)) = true <-> s = "".
Proof.
  simpl. rewrite negb_involutive. apply String.eqb_eq.
Qed.

Lemma validation_passes (this : Component) :
  title (newDocument this) <> "" -> content (newDocument this) <> "" ->
  negb (truthy (VStr (title (newDocument this))))
  || negb (truthy (VStr (content (newDocument this)))) = false.
Proof.
  intros Ht Hc. apply orb_false_intro; apply not_true_is_false;
    rewrite falsy_string; done.
Qed.

(** C7.  With an empty title or an empty content, [addDocument] makes no
    call at all, sets the status to the validation error, and leaves the
    input fields, the list and the loading flag as they were. *)
Theorem addDocument_validates (E : Env) (w : World E) (this : Component) :
  title (newDocument this) = "" \/ content (newDocument this) = "" ->
  let r := run E (addDocument this) w in
  store_calls r = []
  /\ trace r = []
  /\ status (result r)
     = {| message := "Title and content are required"; type := StatusType.error |}
  /\ newDocument (result r) = newDocument this
  /\ documents (result r) = documents this
  /\ isLoading (result r) = isLoading this.
Proof.
  intros H. unfold addDocument.
  replace (negb (truthy (VStr (title (newDocument this))))
           || negb (truthy (VStr (content (newDocument this))))) with true.
  - simpl. repeat split.
  - symmetry. apply orb_true_iff. by rewrite !falsy_string.
Qed.

Lemma addDocument_validates_witness :
  status (result (run MemoryStore.env
                    (addDocument
                       (set_newDocument {| title := ""; content := "B" |}
                          (data "http://localhost:5984/notes")))
                    MemoryStore.empty))
  = {| message := "Title and content are required"; type := StatusType.error |}.
Proof.
  refine (proj1 (proj2 (proj2
    (addDocument_validates MemoryStore.env MemoryStore.empty
       (set_newDocument {| title := ""; content := "B" |}
          (data "http://localhost:5984/notes")) _)))).
  left. reflexivity.
Defined.

Lemma fetchDocuments_isLoading (E : Env) (w : World E) (this : Component) :
  loading_needs_service this ->
  isLoading (result (run E (fetchDocuments this) w)) = false.
Proof.
  intros Hinv. unfold fetchDocuments.
  destruct (databaseService this) as [service |] eqn:Hs; simpl.
  - by rewrite result_bind.
  - by apply Hinv.
Qed.

Lemma loading_needs_service_data (dbUrl : string) :
  loading_needs_service (data dbUrl).
Proof. intros _. reflexivity. Qed.

Lemma loading_needs_service_kept (E : Env) (w : World E) (this : Component)
    (id : string) :
  loading_needs_service this ->
  loading_needs_service (result (run E (mounted this) w))
  /\ loading_needs_service (result (run E (fetchDocuments this) w))
  /\ loading_needs_service (result (run E (addDocument this) w))
  /\ loading_needs_service (result (run E (deleteDocument this id) w))
  /\ loading_needs_service (fst (result (run E (unmounted this) w))).
Proof.
  intros Hinv. repeat split.
  - intros _. unfold mounted, initializeDatabase. rewrite result_bind.
    pose proof (initialize_never_rejects E (createDatabaseService (dbUrl this)) w) as Hr.
    destruct (result (run E (initialize _) w)) as [service r]. simpl in Hr. subst r.
    apply fetchDocuments_isLoading. intros Hn. discriminate Hn.
  - intros _. by apply fetchDocuments_isLoading.
  - unfold addDocument.
    destruct (negb (truthy (VStr (title (newDocument this)))) || _); [exact Hinv |].
    destruct (databaseService this) as [service |] eqn:Hs; simpl.
    + intros _. destruct (PouchDB.respond E NowISOString w) as [now w0]; simpl.
      by rewrite !result_bind.
    + intros _. by apply Hinv.
  - unfold deleteDocument.
    destruct (databaseService this) as [service |] eqn:Hs; simpl.
    + intros _. by rewrite !result_bind.
    + intros _. by apply Hinv.
  - unfold unmounted.
    destruct (databaseService this) as [service |] eqn:Hs; simpl.
    + rewrite result_bind. destruct (result (run E (close service) w)) as [s r]; simpl.
      intros Hn. discriminate Hn.
    + intros _. by apply Hinv.
Qed.

(** C8.  In every state the component can be in, once [fetchDocuments],
    [deleteDocument] or an [addDocument] that passed validation has
    completed, [isLoading] is false, whatever the store answered. *)
Theorem isLoading_false_after_action (E : Env) (w : World E) (this : Component)
    (id : string) :
  loading_needs_service this ->
  isLoading (result (run E (fetchDocuments this) w)) = false
  /\ isLoading (result (run E (deleteDocument this id) w)) = false
  /\ (title (newDocument this) <> "" -> content (newDocument this) <> "" ->
      isLoading (result (run E (addDocument this) w)) = false).
Proof.
  intros Hinv. split; [by apply fetchDocuments_isLoading |]. split.
  - unfold deleteDocument.
    destruct (databaseService this) as [service |] eqn:Hs; simpl.
    + by rewrite !result_bind.
    + by apply Hinv.
  - intros Ht Hc. unfold addDocument. rewrite validation_passes by done.
    destruct (databaseService this) as [service |] eqn:Hs; simpl.
    + destruct (PouchDB.respond E NowISOString w) as [now w0]; simpl.
      by rewrite !result_bind.
    + by apply Hinv.
Qed.

Lemma isLoading_false_after_action_witness :
  isLoading (result (run MemoryStore.env
                       (deleteDocument
                          (set_databaseService
                             (Some {| db := Some 0;
                                      DatabaseService.dbUrl := "http://localhost:5984/notes" |})
                             (data "http://localhost:5984/notes"))
                          "gone")
                       MemoryStore.unreachable)) = false.
Proof.
  refine (proj1 (proj2
    (isLoading_false_after_action MemoryStore.env MemoryStore.unreachable
       (set_databaseService
          (Some {| db := Some 0;
                   DatabaseService.dbUrl := "http://localhost:5984/notes" |})
          (data "http://localhost:5984/notes")) "gone" _))).
  intros Hnone. simpl in Hnone. discriminate Hnone.
Defined.

(** C9.  When the [getAllDocuments] call of a refresh rejects, the list is
    the one held before the refresh and the status is the error's message
    with type ['error']. *)
Theorem failed_refresh_keeps_documents (E : Env) (w : World E) (this : Component)
    (service : Service) (e : DatabaseError) :
  databaseService this = Some service ->
  result (run E (getAllDocuments service) w) = Rejected e ->
  let r := run E (fetchDocuments this) w in
  documents (result r) = documents this
  /\ status (result r)
     = {| message := DatabaseService.message e; type := StatusType.error |}.
Proof.
  intros Hs Hrej. unfold fetchDocuments. rewrite Hs; simpl.
  rewrite result_bind, Hrej. simpl. split; reflexivity.
Qed.

Lemma failed_refresh_keeps_documents_witness :
  let this := set_documents [MemoryStore.note]
                (set_databaseService
                   (Some {| db := Some 0;
                            DatabaseService.dbUrl := "http://localhost:5984/notes" |})
                   (data "http://localhost:5984/notes")) in
  let r := run MemoryStore.env (fetchDocuments this) MemoryStore.unreachable in
  documents (result r) = [MemoryStore.note]
  /\ status (result r)
     = {| message := "Failed to fetch documents"; type := StatusType.error |}.
Proof.
  apply (failed_refresh_keeps_documents MemoryStore.env MemoryStore.unreachable
           (set_documents [MemoryStore.note]
              (set_databaseService
                 (Some {| db := Some 0;
                          DatabaseService.dbUrl := "http://localhost:5984/notes" |})
                 (data "http://localhost:5984/notes")))
           {| db := Some 0; DatabaseService.dbUrl := "http://localhost:5984/notes" |}
           {| DatabaseService.status := VNum 500;
              DatabaseService.message := "Failed to fetch documents";
              DatabaseService.error := MemoryStore.unreachable_error |}).
  - reflexivity.
  - vm_compute. reflexivity.
Defined.

(** C10.  While [databaseService] is [null], [fetchDocuments],
    [deleteDocument] and an [addDocument] with both fields filled return
    at once: no call is made, not even to the console, and the component
    is left exactly as it was. *)
Theorem no_service_no_effect (E : Env) (w : World E) (this : Component) (id : string) :
  databaseService this = None ->
  run E (fetchDocuments this) w = {| result := this; trace := []; final := w |}
  /\ run E (deleteDocument this id) w = {| result := this; trace := []; final := w |}
  /\ (title (newDocument this) <> "" -> content (newDocument this) <> "" ->
      run E (addDocument this) w = {| result := this; trace := []; final := w |}).
Proof.
  intros Hs. unfold fetchDocuments, deleteDocument, addDocument. rewrite Hs.
  split; [done |]. split; [done |].
  intros Ht Hc. by rewrite validation_passes.
Qed.

Lemma no_service_no_effect_witness :
  let this := set_newDocument {| title := "A"; content := "B" |}
                (data "http://localhost:5984/notes") in
  run MemoryStore.env (addDocument this) MemoryStore.empty
    = Build_Run MemoryStore.env Component this [] MemoryStore.empty.
Proof.
  refine (proj2 (proj2
    (no_service_no_effect MemoryStore.env MemoryStore.empty
       (set_newDocument {| title := "A"; content := "B" |}
          (data "http://localhost:5984/notes")) "n1" eq_refl)) _ _);
    simpl; discriminate.
Defined.

(** ** Further properties of the component *)

Lemma trace_bind (E : Env) {A B : Type} (p : Prog A) (f : A -> Prog B) (w : World E) :
  trace (run E (bind p f) w)
    = trace (run E p w) ++ trace (run E (f (result (run E p w))) (final (run E p w))).
Proof. by rewrite run_bind. Qed.

Lemma getAllDocuments_message (E : Env) (w : World E) (service : Service)
    (e : DatabaseError) :
  result (run E (getAllDocuments service) w) = Rejected e ->
  DatabaseService.message e = "Database not initialized"
  \/ DatabaseService.message e = "Failed to fetch documents".
Proof.
  unfold getAllDocuments, handleError, call.
  destruct (db service) as [h |]; simpl.
  - answer. destruct r as [response | error]; simpl; [discriminate |].
    answer. intros [= <-]. by right.
  - answer. intros [= <-]. by left.
Qed.

(** What a refresh leaves behind, when there is a service. *)
Lemma fetchDocuments_result (E : Env) (w : World E) (this : Component)
    (service : Service) :
  databaseService this = Some service ->
  let r := result (run E (fetchDocuments this) w) in
  isLoading r = false
  /\ databaseService r = Some service
  /\ newDocument r = newDocument this
  /\ dbUrl r = dbUrl this
  /\ ((type (status r) = StatusType.success
       /\ message (status r) = pretty (length (documents r)) +:+ " documents loaded")
      \/ (type (status r) = StatusType.error
          /\ documents r = documents this
          /\ (message (status r) = "Database not initialized"
              \/ message (status r) = "Failed to fetch documents"))).
Proof.
  intros Hs. unfold fetchDocuments. rewrite Hs; simpl. rewrite result_bind.
  destruct (result (run E (getAllDocuments service) w)) as [docs | e] eqn:Hr; simpl.
  - repeat (split; [done |]). left. done.
  - repeat (split; [done |]). right.
    repeat (split; [done |]). by apply (getAllDocuments_message E w service).
Qed.

(** A refresh looks at the service and the list only. *)
Lemma fetchDocuments_frame (E : Env) (w : World E) (a b : Component)
    (service : Service) :
  databaseService a = Some service ->
  databaseService b = Some service ->
  documents a = documents b ->
  documents (result (run E (fetchDocuments a) w))
    = documents (result (run E (fetchDocuments b) w))
  /\ status (result (run E (fetchDocuments a) w))
     = status (result (run E (fetchDocuments b) w))
  /\ trace (run E (fetchDocuments a) w) = trace (run E (fetchDocuments b) w)
  /\ newDocument (result (run E (fetchDocuments a) w)) = newDocument a.
Proof.
  intros Ha Hb Hd. unfold fetchDocuments. rewrite Ha, Hb; simpl.
  rewrite !result_bind, !trace_bind.
  destruct (result (run E (getAllDocuments service) w)); simpl; done.
Qed.

(** X13.  A refresh whose [getAllDocuments] resolves replaces the list by
    the documents fetched and sets the status to ['<n> documents loaded']
    with their number and type ['success']; the input fields and the
    service are untouched, the loading flag is down, and the only calls made
    are those of [getAllDocuments]. *)
Theorem refresh_loads_documents (E : Env) (w : World E) (this : Component)
    (service : Service) (docs : list Doc) :
  databaseService this = Some service ->
  result (run E (getAllDocuments service) w) = Resolved docs ->
  let r := run E (fetchDocuments this) w in
  documents (result r) = docs
  /\ status (result r)
     = {| message := pretty (length docs) +:+ " documents loaded";
          type := StatusType.success |}
  /\ isLoading (result r) = false
  /\ newDocument (result r) = newDocument this
  /\ databaseService (result r) = Some service
  /\ trace r = trace (run E (getAllDocuments service) w).
Proof.
  intros Hs Hr. unfold fetchDocuments. rewrite Hs; simpl.
  rewrite result_bind, trace_bind, Hr; simpl.
  repeat (split; [done |]). apply app_nil_r.
Qed.

Lemma refresh_loads_documents_witness :
  let this := set_databaseService
                (Some {| db := Some 0;
                         DatabaseService.dbUrl := "http://localhost:5984/notes" |})
                (data "http://localhost:5984/notes") in
  let r := run MemoryStore.env (fetchDocuments this) MemoryStore.one_note in
  documents (result r) = [MemoryStore.note]
  /\ status (result r)
     = {| message := "1 documents loaded"; type := StatusType.success |}.
Proof.
  pose proof (refresh_loads_documents MemoryStore.env MemoryStore.one_note
                (set_databaseService
                   (Some {| db := Some 0;
                            DatabaseService.dbUrl := "http://localhost:5984/notes" |})
                   (data "http://localhost:5984/notes"))
                {| db := Some 0; DatabaseService.dbUrl := "http://localhost:5984/notes" |}
                [MemoryStore.note] eq_refl) as H.
  destruct H as (Hd & Hst & _).
  - vm_compute. reflexivity.
  - split; [exact Hd | exact Hst].
Defined.

(** X14.  An [addDocument] that passed validation reads the clock and calls
    [createDocument] with the title, the content and that time.  When the
    creation is rejected, the status is the error's message with type
    ['error'], the input fields keep what was typed, the list is unchanged,
    the loading flag is down and no refresh is made. *)
Theorem add_rejected (E : Env) (w : World E) (this : Component)
    (service : Service) (e : DatabaseError) :
  title (newDocument this) <> "" -> content (newDocument this) <> "" ->
  databaseService this = Some service ->
  let now := fst (PouchDB.respond E NowISOString w) in
  let w0 := snd (PouchDB.respond E NowISOString w) in
  let c := run E (createDocument service
                    (<["createdAt" := VStr now]>
                       (<["content" := VStr (content (newDocument this))]>
                          (<["title" := VStr (title (newDocument this))]> ∅)))) w0 in
  result c = Rejected e ->
  let r := run E (addDocument this) w in
  status (result r)
    = {| message := DatabaseService.message e; type := StatusType.error |}
  /\ newDocument (result r) = newDocument this
  /\ documents (result r) = documents this
  /\ isLoading (result r) = false
  /\ trace r = NowISOString :: trace c.
Proof.
  intros Ht Hc Hs. unfold addDocument. rewrite validation_passes by done.
  rewrite Hs; simpl. destruct (PouchDB.respond E NowISOString w) as [now w0]; simpl.
  intros Hr. rewrite !result_bind, !trace_bind, Hr; simpl.
  repeat (split; [done |]). by rewrite app_nil_r.
Qed.

Lemma add_rejected_witness :
  let this := set_newDocument {| title := "A"; content := "B" |}
                (set_databaseService
                   (Some {| db := Some 0;
                            DatabaseService.dbUrl := "http://localhost:5984/notes" |})
                   (data "http://localhost:5984/notes")) in
  let r := run MemoryStore.env (addDocument this) MemoryStore.unreachable in
  status (result r)
    = {| message := "Failed to create document"; type := StatusType.error |}
  /\ newDocument (result r) = {| title := "A"; content := "B" |}.
Proof.
  pose proof (add_rejected MemoryStore.env MemoryStore.unreachable
                (set_newDocument {| title := "A"; content := "B" |}
                   (set_databaseService
                      (Some {| db := Some 0;
                               DatabaseService.dbUrl := "http://localhost:5984/notes" |})
                      (data "http://localhost:5984/notes")))
                {| db := Some 0; DatabaseService.dbUrl := "http://localhost:5984/notes" |}
                {| DatabaseService.status := VNum 500;
                   DatabaseService.message := "Failed to create document";
                   DatabaseService.error := MemoryStore.unreachable_error |}) as H.
  destruct H as (Hst & Hnew & _).
  - simpl. discriminate.
  - simpl. discriminate.
  - reflexivity.
  - vm_compute. reflexivity.
  - split; [exact Hst | exact Hnew].
Defined.

(** X15.  When the creation goes through, [addDocument] empties both
    input fields and refreshes right after: the list and the status it
    leaves are those of a refresh made at that point (so the status is the
    refresh's, not ['Document added successfully']), the loading flag is
    down, and the calls are the clock, those of [createDocument], then those
    of the refresh. *)
Theorem add_then_refresh (E : Env) (w : World E) (this : Component)
    (service : Service) (response : DatabaseResponse) :
  title (newDocument this) <> "" -> content (newDocument this) <> "" ->
  databaseService this = Some service ->
  let now := fst (PouchDB.respond E NowISOString w) in
  let w0 := snd (PouchDB.respond E NowISOString w) in
  let c := run E (createDocument service
                    (<["createdAt" := VStr now]>
                       (<["content" := VStr (content (newDocument this))]>
                          (<["title" := VStr (title (newDocument this))]> ∅)))) w0 in
  result c = Resolved response ->
  let f := run E (fetchDocuments this) (final c) in
  let r := run E (addDocument this) w in
  newDocument (result r) = {| title := ""; content := "" |}
  /\ documents (result r) = documents (result f)
  /\ status (result r) = status (result f)
  /\ isLoading (result r) = false
  /\ trace r = NowISOString :: trace c ++ trace f.
Proof.
  intros Ht Hc Hs. unfold addDocument. rewrite validation_passes by done.
  rewrite Hs; simpl. destruct (PouchDB.respond E NowISOString w) as [now w0]; simpl.
  intros Hr. rewrite !result_bind, !trace_bind, Hr; simpl.
  match goal with
  | |- context [run E (fetchDocuments ?a) ?w1] =>
      destruct (fetchDocuments_frame E w1 a this service) as (Hd & Hst & Htr & Hnew);
        [done | done | done |]
  end.
  rewrite Hd, Hst, Htr, Hnew. by rewrite app_nil_r.
Qed.

Lemma add_then_refresh_witness :
  let this := set_newDocument {| title := "A"; content := "B" |}
                (set_databaseService
                   (Some {| db := Some 0;
                            DatabaseService.dbUrl := "http://localhost:5984/notes" |})
                   (data "http://localhost:5984/notes")) in
  newDocument (result (run MemoryStore.env (addDocument this) MemoryStore.empty))
    = {| title := ""; content := "" |}.
Proof.
  pose proof (add_then_refresh MemoryStore.env MemoryStore.empty
                (set_newDocument {| title := "A"; content := "B" |}
                   (set_databaseService
                      (Some {| db := Some 0;
                               DatabaseService.dbUrl := "http://localhost:5984/notes" |})
                      (data "http://localhost:5984/notes")))
                {| db := Some 0; DatabaseService.dbUrl := "http://localhost:5984/notes" |}
                {| DatabaseService.ok := true; DatabaseService.id := "doc0";
                   DatabaseService.rev := "1-r" |}) as H.
  destruct H as (Hnew & _).
  - simpl. discriminate.
  - simpl. discriminate.
  - reflexivity.
  - vm_compute. reflexivity.
  - exact Hnew.
Defined.

(** X16.  The component's [deleteDocument], when there is a service.  If
    the service's [deleteDocument] rejects, the status is the error's message
    with type ['error'], the list is unchanged and no refresh is made.  If it
    resolves, a refresh follows at once and the list and the status are the
    refresh's.  The input fields are never touched and the loading flag ends
    down. *)
Theorem delete_then_refresh (E : Env) (w : World E) (this : Component)
    (service : Service) (id : string) :
  databaseService this = Some service ->
  let d := run E (DatabaseService.deleteDocument service id) w in
  let f := run E (fetchDocuments this) (final d) in
  let r := run E (deleteDocument this id) w in
  newDocument (result r) = newDocument this
  /\ isLoading (result r) = false
  /\ match result d with
     | Rejected e =>
         status (result r)
           = {| message := DatabaseService.message e; type := StatusType.error |}
         /\ documents (result r) = documents this
         /\ trace r = trace d
     | Resolved _ =>
         status (result r) = status (result f)
         /\ documents (result r) = documents (result f)
         /\ trace r = trace d ++ trace f
     end.
Proof.
  intros Hs. unfold deleteDocument. rewrite Hs; simpl.
  rewrite !result_bind, !trace_bind.
  destruct (result (run E (DatabaseService.deleteDocument service id) w))
    as [response | e]; simpl.
  - match goal with
    | |- context [run E (fetchDocuments ?a) ?w1] =>
        destruct (fetchDocuments_frame E w1 a this service) as (Hd & Hst & Htr & Hnew);
          [done | done | done |]
    end.
    rewrite Hd, Hst, Htr, Hnew. by rewrite app_nil_r.
  - repeat (split; [done |]). by rewrite app_nil_r.
Qed.

Lemma delete_then_refresh_witness :
  let this := set_documents [MemoryStore.note]
                (set_databaseService
                   (Some {| db := Some 0;
                            DatabaseService.dbUrl := "http://localhost:5984/notes" |})
                   (data "http://localhost:5984/notes")) in
  isLoading (result (run MemoryStore.env (deleteDocument this "n1") MemoryStore.one_note))
    = false.
Proof.
  exact (proj1 (proj2
    (delete_then_refresh MemoryStore.env MemoryStore.one_note
       (set_documents [MemoryStore.note]
          (set_databaseService
             (Some {| db := Some 0;
                      DatabaseService.dbUrl := "http://localhost:5984/notes" |})
             (data "http://localhost:5984/notes")))
       {| db := Some 0; DatabaseService.dbUrl := "http://localhost:5984/notes" |}
       "n1" eq_refl))).
Defined.

(** X17.  After [mounted], whatever the store answered: the component holds
    a service for its own [dbUrl], the input fields are as before, the
    loading flag is down, and the status is the one of the refresh that
    follows [initialize]: either ['<n> documents loaded'] for the list now
    held, or an error that is ['Database not initialized'] or ['Failed to
    fetch documents'] with the list unchanged.  The failure branch of
    [initializeDatabase] is never taken, as [initialize] does not reject. *)
Theorem mounted_outcome (E : Env) (w : World E) (this : Component) :
  let r := result (run E (mounted this) w) in
  (exists service : Service,
      databaseService r = Some service
      /\ DatabaseService.dbUrl service = dbUrl this)
  /\ newDocument r = newDocument this
  /\ isLoading r = false
  /\ ((type (status r) = StatusType.success
       /\ message (status r) = pretty (length (documents r)) +:+ " documents loaded")
      \/ (type (status r) = StatusType.error
          /\ documents r = documents this
          /\ (message (status r) = "Database not initialized"
              \/ message (status r) = "Failed to fetch documents"))).
Proof.
  unfold mounted, initializeDatabase. cbn [dbUrl set_databaseService].
  rewrite result_bind.
  pose proof (initialize_never_rejects E (createDatabaseService (dbUrl this)) w) as Hres.
  pose proof (initialize_keeps_dbUrl E w (createDatabaseService (dbUrl this))) as Hurl.
  destruct (result (run E (initialize (createDatabaseService (dbUrl this))) w))
    as [service p]. cbn [fst snd] in Hres, Hurl. subst p. cbn iota beta.
  match goal with
  | |- context [run E (fetchDocuments ?a) ?w1] =>
      destruct (fetchDocuments_result E w1 a service eq_refl)
        as (Hl & Hsvc & Hnew & Hu & Hst)
  end.
  split; [by exists service |]. split; [done |]. split; [done |]. exact Hst.
Qed.

(** X18.  [unmounted] makes no call when the component has no service or
    its service has no handle.  Otherwise it makes the one call of [close];
    when that resolves, the service kept by the component has no handle
    left, and nothing else of the component has changed; when it rejects,
    the rejection leaves [unmounted] uncaught. *)
Theorem unmounted_outcome (E : Env) (w : World E) (this : Component) :
  let r := run E (unmounted this) w in
  documents (fst (result r)) = documents this
  /\ status (fst (result r)) = status this
  /\ newDocument (fst (result r)) = newDocument this
  /\ isLoading (fst (result r)) = isLoading this
  /\ match databaseService this with
     | None => r = {| result := (this, Resolved tt); trace := []; final := w |}
     | Some service =>
         match db service with
         | None => trace r = [] /\ snd (result r) = Resolved tt
         | Some h =>
             trace r = [Close h]
             /\ match fst (PouchDB.respond E (Close h) w) with
                | Resolved _ =>
                    snd (result r) = Resolved tt
                    /\ databaseService (fst (result r))
                       = Some {| db := None;
                                 DatabaseService.dbUrl := DatabaseService.dbUrl service |}
                | Rejected error =>
                    snd (result r) = Rejected error
                    /\ databaseService (fst (result r)) = Some service
                end
         end
     end.
Proof.
  unfold unmounted. destruct (databaseService this) as [service |] eqn:Hs; simpl;
    [| done].
  unfold close, call. destruct (db service) as [h |] eqn:Hdb; simpl; [| done].
  answer. destruct r as [[] | error]; simpl; done.
Qed.


(** ** Calls the component never makes *)

Lemma avoids_bind (bad : Call -> bool) {A B : Type} (p : Prog A) (f : A -> Prog B) :
  Avoids bad p -> (forall a : A, Avoids bad (f a)) -> Avoids bad (bind p f).
Proof.
  intros Hp Hf. induction Hp as [a | c k Hc Hk IH]; simpl.
  - apply Hf.
  - apply avoids_vis; [exact Hc | exact IH].
Qed.

Lemma avoids_trace (bad : Call -> bool) {A : Type} (p : Prog A) (E : Env) (w : World E) :
  Avoids bad p -> Forall (fun c => bad c = false) (trace (run E p w)).
Proof.
  intros Hp. revert w. induction Hp as [a | c k Hc Hk IH]; intros w; simpl.
  - constructor.
  - destruct (PouchDB.respond E c w) as [r w1]; simpl.
    constructor; [exact Hc | apply IH].
Qed.

Ltac avoid :=
  repeat first
    [ apply avoids_ret
    | apply avoids_vis; [reflexivity | intros []]
    | apply avoids_vis; [reflexivity | intros ?] ].

Lemma handleError_avoids_put (message0 : string) (error0 : Value) :
  Avoids is_put (handleError message0 error0).
Proof. unfold handleError, call; simpl. avoid. Qed.

Lemma getAllDocuments_avoids_put (service : Service) :
  Avoids is_put (getAllDocuments service).
Proof.
  unfold getAllDocuments, handleError, call. destruct (db service); simpl; avoid.
Qed.

Lemma fetchDocuments_avoids_put (this : Component) :
  Avoids is_put (fetchDocuments this).
Proof.
  unfold fetchDocuments. destruct (databaseService this); [| avoid].
  apply avoids_bind; [apply getAllDocuments_avoids_put | intros; avoid].
Qed.

(** X19.  No method of the component ever calls [db.put]: through the
    component documents are created, listed and removed, never rewritten.
    This holds for [mounted], [fetchDocuments], [addDocument],
    [deleteDocument] and [unmounted], in every state and whatever the store
    answers. *)
Theorem component_never_puts (E : Env) (w : World E) (this : Component) (id : string) :
  Forall (fun c => is_put c = false) (trace (run E (mounted this) w))
  /\ Forall (fun c => is_put c = false) (trace (run E (fetchDocuments this) w))
  /\ Forall (fun c => is_put c = false) (trace (run E (addDocument this) w))
  /\ Forall (fun c => is_put c = false) (trace (run E (deleteDocument this id) w))
  /\ Forall (fun c => is_put c = false) (trace (run E (unmounted this) w)).
Proof.
  repeat apply conj; apply avoids_trace.
  - unfold mounted, initializeDatabase. apply avoids_bind.
    + unfold initialize, handleError, call; simpl. avoid.
    + intros [service [u | e]]; [apply fetchDocuments_avoids_put | avoid].
  - apply fetchDocuments_avoids_put.
  - unfold addDocument.
    destruct (negb (truthy (VStr (title (newDocument this)))) || _); [avoid |].
    destruct (databaseService this) as [service |]; [| avoid].
    apply avoids_bind; [unfold call; avoid |]. intros now.
    apply avoids_bind.
    + unfold createDocument, handleError, call.
      destruct (db service); simpl; [| avoid].
      destruct (truthy _); simpl; avoid.
    + intros [response | e]; (apply avoids_bind; [| intros; avoid]).
      * apply fetchDocuments_avoids_put.
      * avoid.
  - unfold deleteDocument.
    destruct (databaseService this) as [service |]; [| avoid].
    apply avoids_bind.
    + unfold DatabaseService.deleteDocument, handleError, call.
      destruct (db service); simpl; avoid.
    + intros [response | e]; (apply avoids_bind; [| intros; avoid]).
      * apply fetchDocuments_avoids_put.
      * avoid.
  - unfold unmounted. destruct (databaseService this) as [service |]; [| avoid].
    apply avoids_bind.
    + unfold close, call. destruct (db service); simpl; avoid.
    + intros [s p]. avoid.
Qed.
